(** * hwmonitor-gitops: the instrumented Flask application [app/app.py]

    A shallow embedding of [app.py] and the properties of its request
    instrumentation: the before/after hook pair, the three route handlers,
    and the hook-level interleaving of concurrent requests.

    Python values are modelled as the program has them: timestamps and
    durations are binary64 floats ([PrimFloat.float], the type returned by
    [time.time()]), strings are [string], the HTTP status code is an integer
    ([Z]), and the label-keyed children of the two Prometheus metrics are
    finite maps ([gmap]) from label values to the child's state.  Statements
    of the program run in a small state-and-exception monad [py] over the
    process-wide state [world]. *)

From Stdlib Require Import ZArith Floats.PrimFloat.
From stdpp Require Import base option list gmap strings pretty.

Set Warnings "-inexact-float".
Local Open Scope string_scope.
Local Open Scope list_scope.
Local Open Scope nat_scope.

(** ** Python values and exceptions *)

(** Objects that may sit in a dynamic attribute of the [app] object. The
    program itself only ever stores a float there; [None] and strings are
    the two other kinds of object considered, and a float cannot be
    subtracted from either. Numbers other than floats, and objects that
    define their own subtraction, are not part of this model. *)
Inductive pyobj : Type :=
  | PyNone
  | PyFloat (f : float)
  | PyStr (s : string).

Inductive pyexc : Type :=
  | TypeError
  | AttributeError
  | OtherException (name : string).

Inductive outcome (A : Type) : Type :=
  | Returned (a : A)
  | Raised (e : pyexc).
Arguments Returned {A} a.
Arguments Raised {A} e.

(** ** The HTTP objects handed over by Flask *)

(** The result of URL matching, as Flask keeps it on the request: either
    the endpoint of the matched rule, or the routing exception with its
    status code (404, 405, ...). *)
Inductive routing : Type :=
  | Matched (ep : string)
  | RoutingException (code : Z).

Record request : Type := Request {
  method : string;
  path : string;
  url_rule : routing
}.

(** [request.endpoint]: the matched rule's endpoint, [None] when no rule
    matched. *)
Definition endpoint (r : request) : option string :=
  match url_rule r with
  | Matched ep => Some ep
  | RoutingException _ => None
  end.

(** ** The Prometheus metrics *)

(** The two module-level metrics. A labelled metric holds one child per
    tuple of label values; children are created on first use. The counter
    child is its count, the histogram child the observations it received,
    most recent first. *)
Record registry : Type := Registry {
  REQUEST_COUNT : gmap (string * string * string) nat;
  REQUEST_LATENCY : gmap string (list float)
}.

(** The payload of a response: [jsonify] of a flat dictionary, the text
    produced by [generate_latest], or a body produced by the framework. *)
Inductive payload : Type :=
  | Json (fields : list (string * string))
  | Text (s : string)
  | Empty.

(** A response object: its status, the mimetype it was built with (the
    [mimetype=] argument of its constructor, or what [jsonify] and the
    framework pass there), and its payload. The [Content-Type] header the
    client receives is derived from the mimetype by [content_type]
    below. *)
Record response : Type := MkResponse {
  status_code : Z;
  mimetype_arg : string;
  data : payload
}.

(** [werkzeug.utils.get_content_type]: a charset parameter is appended to
    every textual mimetype, whether or not it already carries one. *)
Definition _charset_mimetypes : list string :=
  ["application/ecmascript"; "application/javascript"; "application/sql";
   "application/xml"; "application/xml-dtd";
   "application/xml-external-parsed-entity"].

Definition get_content_type (mimetype charset : string) : string :=
  if String.prefix "text/" mimetype
     || bool_decide (mimetype ∈ _charset_mimetypes)
     || String.prefix (String.rev "+xml") (String.rev mimetype)
  then String.append mimetype (String.append "; charset=" charset)
  else mimetype.

(** The [Content-Type] header of a response built from a mimetype. *)
Definition content_type (r : response) : string :=
  get_content_type (mimetype_arg r) "utf-8".

(** What reading [__name__] off a registered view function does: it yields
    a string, the attribute is missing, or the lookup raises. *)
Inductive name_attr : Type :=
  | NameIs (s : string)
  | NameMissing
  | NameRaises (e : pyexc).

(** ** The process-wide state *)

(** Everything the module shares between requests: the dynamic attributes
    set on the [app] object, [app.view_functions], the metrics, and the
    environment ([time.time], [random.uniform], [time.sleep]).  The wall
    clock and the random generator are oracles: reading number [n] of the
    clock yields [wall_clock n], draw number [n] of [random.uniform a b]
    yields [rng a b n]. *)
Record world : Type := World {
  app_attrs : gmap string pyobj;
  view_functions : gmap string name_attr;
  metrics_registry : registry;
  wall_clock : nat → float;
  clock_reads : nat;
  rng : float → float → nat → float;
  rng_draws : nat;
  sleeps : list float
}.

(** ** The monad of Python statements *)

Definition py (A : Type) : Type := world → outcome A * world.

Definition py_ret {A} (a : A) : py A := λ w, (Returned a, w).

Definition py_bind {A B} (m : py A) (k : A → py B) : py B :=
  λ w, match m w with
       | (Returned a, w') => k a w'
       | (Raised e, w') => (Raised e, w')
       end.

Definition py_raise {A} (e : pyexc) : py A := λ w, (Raised e, w).

(** [try: body except Exception: handler] *)
Definition try_except {A} (body : py A) (handler : py A) : py A :=
  λ w, match body w with
       | (Returned a, w') => (Returned a, w')
       | (Raised _, w') => handler w'
       end.

Notation "'let!' x ':=' m 'in' k" := (py_bind m (λ x, k))
  (at level 10, x name, m at level 100, k at level 200,
   format "'[v' 'let!'  x  ':='  m  'in' '/' k ']'").
Notation "m '>>' k" := (py_bind m (λ _, k))
  (at level 100, k at level 200, right associativity).

(** ** Primitives of the environment *)

(** [time.time()] *)
Definition time_time : py float :=
  λ w, (Returned (wall_clock w (clock_reads w)),
        World (app_attrs w) (view_functions w) (metrics_registry w)
              (wall_clock w) (S (clock_reads w))
              (rng w) (rng_draws w) (sleeps w)).

(** [time.sleep(d)] *)
Definition time_sleep (d : float) : py unit :=
  λ w, (Returned tt,
        World (app_attrs w) (view_functions w) (metrics_registry w)
              (wall_clock w) (clock_reads w)
              (rng w) (rng_draws w) (d :: sleeps w)).

(** [random.uniform(a, b)] *)
Definition random_uniform (a b : float) : py float :=
  λ w, (Returned (rng w a b (rng_draws w)),
        World (app_attrs w) (view_functions w) (metrics_registry w)
              (wall_clock w) (clock_reads w)
              (rng w) (S (rng_draws w)) (sleeps w)).

(** [setattr(app, name, v)] *)
Definition setattr_app (name : string) (v : pyobj) : py unit :=
  λ w, (Returned tt,
        World (<[name := v]> (app_attrs w)) (view_functions w)
              (metrics_registry w) (wall_clock w) (clock_reads w)
              (rng w) (rng_draws w) (sleeps w)).

(** [getattr(app, name, dflt)]; the default is an already evaluated
    value, as every Python argument is. *)
Definition getattr_app (name : string) (dflt : pyobj) : py pyobj :=
  λ w, (Returned (default dflt (app_attrs w !! name)), w).

(** [app.view_functions.get(ep, None)]; the key [None] is never in the
    dictionary. *)
Definition view_functions_get (ep : option string) : py (option name_attr) :=
  λ w, (Returned (ep ≫= λ e, view_functions w !! e), w).

(** [getattr(f, "__name__", dflt)]: only a missing attribute is turned
    into the default; [None] has no [__name__]. *)
Definition getattr_name (f : option name_attr) (dflt : string) : py string :=
  match f with
  | None => py_ret dflt
  | Some (NameIs s) => py_ret s
  | Some NameMissing => py_ret dflt
  | Some (NameRaises e) => py_raise e
  end.

(** [x - y] on Python objects, for a float [x]. *)
Definition py_sub (x : float) (y : pyobj) : py float :=
  match y with
  | PyFloat f => py_ret (PrimFloat.sub x f)
  | _ => py_raise TypeError
  end.

(** [str(n)] for an integer. *)
Definition py_str (n : Z) : string := pretty n.

(** [Counter.labels(...).inc()]: label values are turned into strings,
    the child is created at zero when absent, and its count grows by one. *)
Definition counter_inc (k : string * string * string)
    (c : gmap (string * string * string) nat) :
    gmap (string * string * string) nat :=
  <[k := S (default 0 (c !! k))]> c.

(** [Histogram.labels(...).observe(v)] *)
Definition histogram_observe (k : string) (v : float)
    (h : gmap string (list float)) : gmap string (list float) :=
  <[k := v :: default [] (h !! k)]> h.

Definition with_registry (f : registry → registry) : py unit :=
  λ w, (Returned tt,
        World (app_attrs w) (view_functions w) (f (metrics_registry w))
              (wall_clock w) (clock_reads w)
              (rng w) (rng_draws w) (sleeps w)).

Definition REQUEST_COUNT_labels_inc (m e : string) (status : Z) : py unit :=
  with_registry (λ r,
    Registry (counter_inc (m, e, py_str status) (REQUEST_COUNT r))
             (REQUEST_LATENCY r)).

Definition REQUEST_LATENCY_labels_observe (e : string) (v : float) : py unit :=
  with_registry (λ r,
    Registry (REQUEST_COUNT r) (histogram_observe e v (REQUEST_LATENCY r))).

(** ** The hook pair of [app.py] *)

(** [@app.before_request def _start_timer()] *)
Definition _start_timer : py unit :=
  let! t := time_time in
  setattr_app "_start_time" (PyFloat t).

(** The first [try] block of [_record_metrics]: the name of the view
    function found by introspection of the dispatch table. *)
Definition derive_endpoint (req : request) : py string :=
  try_except
    (let! f := view_functions_get (endpoint req) in
     getattr_name f "unknown")
    (py_ret "unknown").

(** The second [try] block: the left operand of the subtraction is
    evaluated first, then the arguments of [getattr], default included. *)
Definition compute_elapsed : py float :=
  try_except
    (let! now := time_time in
     let! dflt := time_time in
     let! start := getattr_app "_start_time" (PyFloat dflt) in
     py_sub now start)
    (py_ret 0%float).

(** [@app.after_request def _record_metrics(response)] *)
Definition _record_metrics (req : request) (resp : response) : py response :=
  let! endpoint := derive_endpoint req in
  REQUEST_COUNT_labels_inc (method req) (path req) (status_code resp) >>
  let! elapsed := compute_elapsed in
  REQUEST_LATENCY_labels_observe (path req) elapsed >>
  py_ret resp.

(** ** Reading the metrics *)

(** The count of the counter child with label values [k] (zero while the
    child does not exist) and the observations of the histogram child of
    endpoint [p]. *)
Definition count_of (w : world) (k : string * string * string) : nat :=
  default 0 (REQUEST_COUNT (metrics_registry w) !! k).

Definition observations (w : world) (p : string) : list float :=
  default [] (REQUEST_LATENCY (metrics_registry w) !! p).

(** The label values [_record_metrics] passes to the counter. *)
Definition labels_of (req : request) (resp : response) :
    string * string * string :=
  (method req, path req, py_str (status_code resp)).

(** The value the second [try] block of [_record_metrics] computes in
    world [w], by cases on the [_start_time] attribute of [app]. *)
Definition elapsed_of (w : world) : float :=
  let now := wall_clock w (clock_reads w) in
  let dflt := wall_clock w (S (clock_reads w)) in
  match app_attrs w !! "_start_time" with
  | Some (PyFloat start) => PrimFloat.sub now start
  | Some _ => 0%float
  | None => PrimFloat.sub now dflt
  end.

(** Introspection of the dispatch table finds no name for the request. *)
Definition introspection_fails (req : request) (w : world) : bool :=
  match endpoint req ≫= λ e, view_functions w !! e with
  | Some (NameIs _) => false
  | _ => true
  end.

(** ** The route handlers *)

(** [flask.jsonify(d)]: a 200 response carrying the dictionary as JSON. *)
Definition jsonify (fields : list (string * string)) : response :=
  MkResponse 200 "application/json" (Json fields).

(** [flask.Response(body, mimetype=m)]: the status defaults to 200; the
    header made of [m] is [content_type]. *)
Definition Response (body : string) (m : string) : response :=
  MkResponse 200 m (Text body).

Section App.

(** The two names imported from [prometheus_client] whose definitions
    are the library's: the content type of the text exposition format
    and the function rendering the registry in that format. *)
Variable CONTENT_TYPE_LATEST : string.
Variable generate_latest : registry → string.

(** The answer of the view Flask itself registers under the endpoint
    [static] for [/static/<path:filename>]: the file found under the
    static folder, or the 404 of a missing file. It depends on files and
    request headers that are not part of this model. *)
Variable send_static_file : request → response.

Definition generate_latest_call : py string :=
  λ w, (Returned (generate_latest (metrics_registry w)), w).

(** [@app.route("/") def index()] *)
Definition index : py response :=
  let! d := random_uniform 0.01%float 0.2%float in
  time_sleep d >>
  py_ret (jsonify [("message", "Hello from HWMonitor Flask app!")]).

(** [@app.route("/healthz") def healthz()] *)
Definition healthz : py response :=
  py_ret (jsonify [("status", "ok")]).

(** [@app.route("/metrics") def metrics()] *)
Definition metrics : py response :=
  let! body := generate_latest_call in
  py_ret (Response body CONTENT_TYPE_LATEST).

(** ** Flask's request cycle around the hooks *)

(** [app.view_functions] as a dispatch table: the callables the three
    [@app.route] decorators register, by endpoint (the function's name),
    and the static view the framework registers for every application. *)
Definition view_of (ep : string) : option (request → py response) :=
  if decide (ep = "index") then Some (λ _, index)
  else if decide (ep = "healthz") then Some (λ _, healthz)
  else if decide (ep = "metrics") then Some (λ _, metrics)
  else if decide (ep = "static") then Some (λ req, py_ret (send_static_file req))
  else None.

(** [Flask.dispatch_request] followed by the framework's handling of the
    exceptions it raises: a request no rule matched gets the response of
    its routing exception, an [OPTIONS] request the automatic one, any
    other the return value of its view function. An endpoint without a
    view function makes the lookup raise [KeyError], which the framework
    answers with status 500; in every case the after-hook runs on the
    response. *)
Definition dispatch_request (req : request) : py response :=
  match url_rule req with
  | RoutingException code => py_ret (MkResponse code "text/html" Empty)
  | Matched ep =>
      if decide (method req = "OPTIONS")
      then py_ret (MkResponse 200 "text/html" Empty)
      else match view_of ep with
           | Some view => view req
           | None => py_ret (MkResponse 500 "text/html" Empty)
           end
  end.

(** *** Concurrent requests

    The server runs each request on a thread of its own; all threads
    share [world]. A thread is the request it serves and how far it got.
    Threads are interleaved at the boundaries of the hooks and the view
    function. *)
Inductive stage : Type :=
  | Arrived
  | Timed
  | Handled (rv : response)
  | Finished (rv : response)
  | Failed (e : pyexc).

Record thread : Type := Thread {
  th_request : request;
  th_stage : stage
}.

Definition advance (req : request) {A} (o : outcome A * world)
    (next : A → stage) : thread * world :=
  match o with
  | (Returned a, w') => (Thread req (next a), w')
  | (Raised e, w') => (Thread req (Failed e), w')
  end.

Definition step_thread (t : thread) (w : world) : thread * world :=
  match th_stage t with
  | Arrived => advance (th_request t) (_start_timer w) (λ _, Timed)
  | Timed => advance (th_request t) (dispatch_request (th_request t) w) Handled
  | Handled rv =>
      advance (th_request t) (_record_metrics (th_request t) rv w) Finished
  | Finished _ | Failed _ => (t, w)
  end.

(** The scheduler lets thread [i] take its next step. *)
Definition step (i : nat) (s : list thread * world) : list thread * world :=
  match s.1 !! i with
  | Some t => let '(t', w') := step_thread t s.2 in (<[i := t']> s.1, w')
  | None => s
  end.

Fixpoint run (schedule : list nat) (s : list thread * world) :
    list thread * world :=
  match schedule with
  | [] => s
  | i :: rest => run rest (step i s)
  end.

Definition arrive (reqs : list request) : list thread :=
  (λ r, Thread r Arrived) <$> reqs.

(** ** The contract of the random generator *)

(** The next draw of [random.uniform a b] lies in the closed range the
    function documents. *)
Definition uniform_in_range (w : world) (a b : float) : Prop :=
  PrimFloat.leb a (rng w a b (rng_draws w)) = true ∧
  PrimFloat.leb (rng w a b (rng_draws w)) b = true.

(** ** Accounting over interleaved requests *)

(** The request [GET /] as Flask hands it to the hooks, and the response
    of [index]. *)
Definition GET_root : request := Request "GET" "/" (Matched "index").

Definition greeting : response :=
  jsonify [("message", "Hello from HWMonitor Flask app!")].

(** Whether a thread has completed its request with label values [k],
    with endpoint path [p], or at all; as 0 or 1, to be summed. *)
Definition completed (k : string * string * string) (t : thread) : nat :=
  match th_stage t with
  | Finished rv => if decide (labels_of (th_request t) rv = k) then 1 else 0
  | _ => 0
  end.

Definition measured (p : string) (t : thread) : nat :=
  match th_stage t with
  | Finished _ => if decide (path (th_request t) = p) then 1 else 0
  | _ => 0
  end.

Definition finished (t : thread) : nat :=
  match th_stage t with
  | Finished _ => 1
  | _ => 0
  end.

(** All before-hooks, then all views, then all after-hooks: the [n]
    requests overlap completely. *)
Definition round_robin (n : nat) : list nat :=
  seq 0 n ++ seq 0 n ++ seq 0 n.

(** A thread serving [GET /] is at one of four stages, and the only
    response it ever holds is the greeting. *)
Definition serving_root (t : thread) : Prop :=
  th_request t = GET_root ∧
  (th_stage t = Arrived ∨ th_stage t = Timed ∨
   th_stage t = Handled greeting ∨ th_stage t = Finished greeting).

(** ** Concrete requests and states *)

Definition GET_healthz : request :=
  Request "GET" "/healthz" (Matched "healthz").

(** A request for a path no rule matches, and the response the framework
    makes of the routing exception. *)
Definition GET_nope : request :=
  Request "GET" "/nope" (RoutingException 404).

Definition not_found : response := MkResponse 404 "text/html" Empty.

(** [app.view_functions] as introspection sees it: the three decorators
    register each function under its own name, and the framework
    registers its static view, an anonymous function. *)
Definition app_view_functions : gmap string name_attr :=
  <["index" := NameIs "index"]>
    (<["healthz" := NameIs "healthz"]>
       (<["metrics" := NameIs "metrics"]>
          (<["static" := NameIs "<lambda>"]> ∅))).

(** The process right after the module was imported: no [_start_time]
    attribute, both metrics without children. *)
Definition boot (clock : nat → float) (gen : float → float → nat → float) :
    world :=
  World ∅ app_view_functions (Registry ∅ ∅) clock 0 gen 0 [].

(** A generator whose every draw is 0.1. *)
Definition fixed_rng (a b : float) (n : nat) : float := 0.1%float.

(** Clock readings for two overlapping requests: the first starts at
    100.0, the second starts at 105.0 and is done at 106.0, the first is
    done at 110.0. *)
Definition staggered_clock (n : nat) : float :=
  match n with
  | 0 => 100%float
  | 1 => 105%float
  | 2 | 3 => 106%float
  | _ => 110%float
  end.

(** A clock that advances by half a second between its first two
    readings. *)
Definition advancing_clock (n : nat) : float :=
  match n with
  | 0 => 10%float
  | _ => 10.5%float
  end.

(** ** Whole requests and totals *)

Definition GET_metrics : request :=
  Request "GET" "/metrics" (Matched "metrics").

(** One request served with no other request in between: before-hook,
    view, after-hook. *)
Definition full_dispatch_request (req : request) : py response :=
  _start_timer >>
  let! rv := dispatch_request req in
  _record_metrics req rv.

(** The sum of the counts of all children of the request counter. *)
Definition total_count (w : world) : nat :=
  sum_list_with snd (map_to_list (REQUEST_COUNT (metrics_registry w))).

(** A thread whose before-hook has run. *)
Definition started (t : thread) : Prop := th_stage t ≠ Arrived.


(** The two after-hook runs are for the same method, raw path and status
    code. *)
Definition same_labels (req1 : request) (resp1 : response)
    (req2 : request) (resp2 : response) : Prop :=
  method req1 = method req2 ∧ path req1 = path req2 ∧
  status_code resp1 = status_code resp2.

(** A process in which something other than the before-hook has set
    [app._start_time] to [None]. *)
Definition tampered (clock : nat → float) : world :=
  World (<["_start_time" := PyNone]> ∅) app_view_functions (Registry ∅ ∅)
        clock 0 fixed_rng 0 [].

(** The request is dispatched to the greeting view. *)
Definition to_greeting (req : request) : bool :=
  match url_rule req with
  | Matched ep =>
      bool_decide (ep = "index") && negb (bool_decide (method req = "OPTIONS"))
  | RoutingException _ => false
  end.


(** Every child of the two metrics has been used at least once. *)
Definition children_used (r : registry) : Prop :=
  (∀ k v, REQUEST_COUNT r !! k = Some v → 0 < v) ∧
  (∀ p l, REQUEST_LATENCY r !! p = Some l → l ≠ []).

(** ** Properties of the hooks and handlers *)

Lemma start_timer_run w :
  _start_timer w =
    (Returned tt,
     World (<["_start_time" := PyFloat (wall_clock w (clock_reads w))]>
              (app_attrs w))
           (view_functions w) (metrics_registry w) (wall_clock w)
           (S (clock_reads w)) (rng w) (rng_draws w) (sleeps w)).
Proof. reflexivity. Qed.

Lemma derive_endpoint_run req w :
  ∃ name, derive_endpoint req w = (Returned name, w).
Proof.
  unfold derive_endpoint, try_except, py_bind, view_functions_get.
  destruct (endpoint req ≫= _) as [[s| |e]|]; simpl; eauto.
Qed.

Lemma compute_elapsed_run w :
  compute_elapsed w =
    (Returned (elapsed_of w),
     World (app_attrs w) (view_functions w) (metrics_registry w)
           (wall_clock w) (S (S (clock_reads w)))
           (rng w) (rng_draws w) (sleeps w)).
Proof.
  unfold compute_elapsed, elapsed_of, try_except, py_bind, time_time,
    getattr_app; simpl.
  destruct (app_attrs w !! "_start_time") as [[|f|s]|]; reflexivity.
Qed.

Lemma record_metrics_run req resp w :
  _record_metrics req resp w =
    (Returned resp,
     World (app_attrs w) (view_functions w)
           (Registry
              (counter_inc (labels_of req resp)
                 (REQUEST_COUNT (metrics_registry w)))
              (histogram_observe (path req) (elapsed_of w)
                 (REQUEST_LATENCY (metrics_registry w))))
           (wall_clock w) (S (S (clock_reads w)))
           (rng w) (rng_draws w) (sleeps w)).
Proof.
  unfold _record_metrics.
  unfold py_bind at 1.
  destruct (derive_endpoint_run req w) as [name ->].
  unfold py_bind, REQUEST_COUNT_labels_inc, with_registry; simpl.
  rewrite compute_elapsed_run. reflexivity.
Qed.

Lemma derive_endpoint_value req w :
  derive_endpoint req w =
    (Returned match endpoint req ≫= λ e, view_functions w !! e with
              | Some (NameIs s) => s
              | _ => "unknown"
              end, w).
Proof.
  unfold derive_endpoint, try_except, py_bind, view_functions_get.
  destruct (endpoint req ≫= _) as [[s| |e]|]; reflexivity.
Qed.

Lemma count_of_inc k k' c :
  default 0 (counter_inc k c !! k') =
    if decide (k = k') then S (default 0 (c !! k)) else default 0 (c !! k').
Proof.
  unfold counter_inc. rewrite lookup_insert.
  destruct (decide (k = k')); reflexivity.
Qed.

Lemma observations_observe p p' v h :
  default [] (histogram_observe p v h !! p') =
    if decide (p = p') then v :: default [] (h !! p)
    else default [] (h !! p').
Proof.
  unfold histogram_observe. rewrite lookup_insert.
  destruct (decide (p = p')); reflexivity.
Qed.

(** C5. For every request, response and state, the after-hook returns the
    response and leaves the counter child labelled with the request's
    method, the request's raw path and the response's status code one
    higher than it was (created at one when it did not exist), every other
    counter child as it was, the histogram child labelled with that same
    raw path one observation longer, the new observation being the
    elapsed time computed by the hook, and every other histogram child as
    it was; the matched endpoint plays no part in either label. *)
Theorem record_metrics_labels req resp w :
  let w' := (_record_metrics req resp w).2 in
  let k := (method req, path req, py_str (status_code resp)) in
  (_record_metrics req resp w).1 = Returned resp ∧
  (compute_elapsed w).1 = Returned (elapsed_of w) ∧
  elapsed_of w =
    match app_attrs w !! "_start_time" with
    | Some (PyFloat start) =>
        PrimFloat.sub (wall_clock w (clock_reads w)) start
    | Some _ => 0%float
    | None => PrimFloat.sub (wall_clock w (clock_reads w))
                            (wall_clock w (S (clock_reads w)))
    end ∧
  REQUEST_COUNT (metrics_registry w') !! k =
    Some (S (default 0 (REQUEST_COUNT (metrics_registry w) !! k))) ∧
  (∀ k', k' ≠ k →
         REQUEST_COUNT (metrics_registry w') !! k' =
           REQUEST_COUNT (metrics_registry w) !! k') ∧
  REQUEST_LATENCY (metrics_registry w') !! path req =
    Some (elapsed_of w
            :: default [] (REQUEST_LATENCY (metrics_registry w) !! path req)) ∧
  (∀ p', p' ≠ path req →
         REQUEST_LATENCY (metrics_registry w') !! p' =
           REQUEST_LATENCY (metrics_registry w) !! p') ∧
  REQUEST_COUNT (metrics_registry w') =
    counter_inc (method req, path req, py_str (status_code resp))
      (REQUEST_COUNT (metrics_registry w)) ∧
  REQUEST_LATENCY (metrics_registry w') =
    histogram_observe (path req) (elapsed_of w)
      (REQUEST_LATENCY (metrics_registry w)).
Proof.
  cbv zeta. rewrite record_metrics_run, compute_elapsed_run.
  unfold labels_of, counter_inc, histogram_observe.
  cbn [fst snd metrics_registry REQUEST_COUNT REQUEST_LATENCY].
  split; [reflexivity|]. split; [reflexivity|]. split; [reflexivity|].
  split; [apply lookup_insert_eq|].
  split; [intros k' Hk; apply lookup_insert_ne; congruence|].
  split; [apply lookup_insert_eq|].
  split; [intros p' Hp; apply lookup_insert_ne; congruence|].
  split; reflexivity.
Qed.

(** C10. The name derived by introspection of the dispatch table never
    reaches a metric or the response: two runs of the after-hook that
    differ only in what introspection sees (the rule matched for the
    request, the table of view functions) return the same response and
    leave the same metrics, attributes and clock behind. *)
Theorem introspection_not_observable
    m p rule1 rule2 resp vf1 vf2 attrs reg clock n gen d sl :
  let run1 :=
    _record_metrics (Request m p rule1) resp
      (World attrs vf1 reg clock n gen d sl) in
  let run2 :=
    _record_metrics (Request m p rule2) resp
      (World attrs vf2 reg clock n gen d sl) in
  run1.1 = run2.1 ∧
  metrics_registry run1.2 = metrics_registry run2.2 ∧
  app_attrs run1.2 = app_attrs run2.2 ∧
  clock_reads run1.2 = clock_reads run2.2 ∧
  view_functions run1.2 = vf1 ∧ view_functions run2.2 = vf2.
Proof.
  cbv zeta. rewrite !record_metrics_run. simpl. repeat split; reflexivity.
Qed.

(** C4, as the code has it. The after-hook never raises: for every
    request, response and state it returns the response it was given.
    When introspection of the dispatch table finds no name (no rule
    matched, no entry, no [__name__], or the lookup raises) the derived
    name is "unknown"; the labels recorded are the method, the raw path
    and the status code whatever name was derived. *)
Theorem record_metrics_never_raises req resp w :
  (∃ w', _record_metrics req resp w = (Returned resp, w') ∧
         REQUEST_COUNT (metrics_registry w') =
           counter_inc (labels_of req resp)
             (REQUEST_COUNT (metrics_registry w)) ∧
         REQUEST_LATENCY (metrics_registry w') =
           histogram_observe (path req) (elapsed_of w)
             (REQUEST_LATENCY (metrics_registry w)) ∧
         count_of w' (labels_of req resp) =
           S (count_of w (labels_of req resp))) ∧
  derive_endpoint req w =
    (Returned (if introspection_fails req w then "unknown"
               else match endpoint req ≫= λ e, view_functions w !! e with
                    | Some (NameIs s) => s
                    | _ => "unknown"
                    end), w).
Proof.
  split.
  - eexists. split; [apply record_metrics_run|].
    split; [reflexivity|]. split; [reflexivity|].
    unfold count_of. simpl. rewrite count_of_inc.
    destruct (decide _); [reflexivity | congruence].
  - rewrite derive_endpoint_value. unfold introspection_fails.
    destruct (endpoint req ≫= _) as [[s| |e]|]; reflexivity.
Qed.

(** When [app] has no [_start_time] attribute, the default handed to
    [getattr] is a second reading of the clock, taken after the one it is
    subtracted from: the value observed is the first reading minus the
    second, and the response is returned. *)
Theorem missing_start_time_elapsed req resp w :
  app_attrs w !! "_start_time" = None →
  let w' := (_record_metrics req resp w).2 in
  (_record_metrics req resp w).1 = Returned resp ∧
  observations w' (path req) =
    PrimFloat.sub (wall_clock w (clock_reads w))
                  (wall_clock w (S (clock_reads w)))
      :: observations w (path req).
Proof.
  intros Hnone. rewrite record_metrics_run. simpl. split; [reflexivity|].
  unfold observations. simpl. rewrite observations_observe.
  destruct (decide _); [|congruence].
  unfold elapsed_of. rewrite Hnone. reflexivity.
Qed.

(** C1. The before-hook takes no request: it writes the clock reading
    into the [_start_time] attribute of the one [app] object, and the
    before-hook of the next request replaces it. *)
Theorem start_timer_overwrites w :
  app_attrs (_start_timer w).2 =
    <["_start_time" := PyFloat (wall_clock w (clock_reads w))]>
      (app_attrs w) ∧
  app_attrs ((_start_timer >> _start_timer) w).2 !! "_start_time" =
    Some (PyFloat (wall_clock w (S (clock_reads w)))).
Proof.
  split; [reflexivity|].
  unfold py_bind. rewrite start_timer_run. simpl.
  apply lookup_insert_eq.
Qed.

(** C7. The health handler returns status 200 and the JSON object
    [{"status": "ok"}] in every state, and leaves the state as it found
    it: it does not sleep, draw a random number, read the clock or touch
    the metrics. *)
Theorem healthz_ok w :
  healthz w =
    (Returned (MkResponse 200 "application/json" (Json [("status", "ok")])),
     w).
Proof. reflexivity. Qed.

(** C8. The greeting handler draws one number [d] from
    [random.uniform(0.01, 0.2)], sleeps for exactly [d] seconds, which
    lies between 0.01 and 0.2, and returns status 200 with the greeting;
    it never raises. *)
Theorem index_delay_and_greeting w :
  uniform_in_range w 0.01%float 0.2%float →
  let d := rng w 0.01%float 0.2%float (rng_draws w) in
  (index w).1 =
    Returned (MkResponse 200 "application/json"
                (Json [("message", "Hello from HWMonitor Flask app!")])) ∧
  sleeps (index w).2 = d :: sleeps w ∧
  rng_draws (index w).2 = S (rng_draws w) ∧
  PrimFloat.leb 0.01%float d = true ∧ PrimFloat.leb d 0.2%float = true.
Proof.
  intros [Hlo Hhi]. simpl. auto.
Qed.

(** The metrics handler returns status 200 with the rendering of the
    whole registry by [generate_latest] as its body, built with
    [CONTENT_TYPE_LATEST] as the mimetype argument; the state is
    unchanged. *)
Lemma metrics_exposition w :
  metrics w =
    (Returned (MkResponse 200 CONTENT_TYPE_LATEST
                 (Text (generate_latest (metrics_registry w)))),
     w).
Proof. reflexivity. Qed.

Lemma append_not_self (s t : string) :
  t ≠ "" → String.append s t ≠ s.
Proof.
  intros Ht. induction s as [|a s IH]; cbn [String.append].
  - exact Ht.
  - intros [= H]. exact (IH H).
Qed.

(** C9. The metrics handler answers 200 with the rendering of the whole
    registry, in a response built with [mimetype=CONTENT_TYPE_LATEST].
    The content type of the exposition format being textual, the
    [Content-Type] header of that response is [CONTENT_TYPE_LATEST]
    followed by one more "; charset=utf-8": it is not the required
    string. *)
Theorem metrics_content_type_charset w :
  String.prefix "text/" CONTENT_TYPE_LATEST = true →
  ∃ resp,
    metrics w = (Returned resp, w) ∧
    status_code resp = 200%Z ∧
    data resp = Text (generate_latest (metrics_registry w)) ∧
    content_type resp =
      String.append CONTENT_TYPE_LATEST "; charset=utf-8" ∧
    content_type resp ≠ CONTENT_TYPE_LATEST.
Proof.
  intros Htext. eexists. split; [apply metrics_exposition|].
  assert (content_type
            (MkResponse 200 CONTENT_TYPE_LATEST
               (Text (generate_latest (metrics_registry w)))) =
          String.append CONTENT_TYPE_LATEST "; charset=utf-8") as Hct.
  { unfold content_type, get_content_type. cbn [mimetype_arg].
    rewrite Htext. reflexivity. }
  split; [reflexivity|]. split; [reflexivity|]. split; [exact Hct|].
  rewrite Hct. apply append_not_self. discriminate.
Qed.

Lemma sum_list_with_insert {A} (f : A → nat) (l : list A) i x y :
  l !! i = Some x →
  sum_list_with f (<[i := y]> l) + f x = sum_list_with f l + f y.
Proof.
  revert i. induction l as [|a l IH]; intros [|i] Hi; simplify_eq/=.
  - lia.
  - specialize (IH i Hi). lia.
Qed.

Lemma dispatch_request_registry req w :
  metrics_registry (dispatch_request req w).2 = metrics_registry w.
Proof.
  unfold dispatch_request.
  destruct (url_rule req) as [ep|code]; [|reflexivity].
  destruct (decide (method req = "OPTIONS")); [reflexivity|].
  unfold view_of. repeat case_decide; reflexivity.
Qed.

Lemma advance_registry req {A} (o : outcome A * world) next :
  metrics_registry (advance req o next).2 = metrics_registry o.2.
Proof. destruct o as [[a|e] w']; reflexivity. Qed.

(** One step of one thread: the counter child [k] grows by one exactly
    when the step completes a request labelled [k], the histogram child
    [p] receives one observation exactly when the step completes a
    request to [p]. *)
Lemma step_thread_accounting t w k p :
  let r := step_thread t w in
  count_of r.2 k + completed k t = count_of w k + completed k r.1 ∧
  length (observations r.2 p) + measured p t =
    length (observations w p) + measured p r.1.
Proof.
  unfold step_thread, completed, measured, count_of, observations.
  destruct t as [req [| |rv|rv|e]]; cbn [th_stage th_request].
  - rewrite start_timer_run. simpl. lia.
  - rewrite advance_registry, dispatch_request_registry.
    destruct (dispatch_request req w) as [[a|e] w']; simpl; lia.
  - rewrite record_metrics_run. simpl.
    rewrite count_of_inc, observations_observe.
    repeat case_decide; subst; simpl; lia.
  - simpl. lia.
  - simpl. lia.
Qed.

Lemma step_accounting i s k p :
  count_of (step i s).2 k + sum_list_with (completed k) s.1 =
    count_of s.2 k + sum_list_with (completed k) (step i s).1 ∧
  length (observations (step i s).2 p) + sum_list_with (measured p) s.1 =
    length (observations s.2 p) + sum_list_with (measured p) (step i s).1.
Proof.
  destruct s as [ts w]. unfold step. simpl.
  destruct (ts !! i) as [t|] eqn:Hi; simpl; [|lia].
  pose proof (step_thread_accounting t w k p) as [Hc Ho].
  destruct (step_thread t w) as [t' w']. simpl in *.
  pose proof (sum_list_with_insert (completed k) ts i t t' Hi).
  pose proof (sum_list_with_insert (measured p) ts i t t' Hi).
  lia.
Qed.

Lemma run_accounting schedule s k p :
  count_of (run schedule s).2 k + sum_list_with (completed k) s.1 =
    count_of s.2 k + sum_list_with (completed k) (run schedule s).1 ∧
  length (observations (run schedule s).2 p)
    + sum_list_with (measured p) s.1 =
    length (observations s.2 p)
    + sum_list_with (measured p) (run schedule s).1.
Proof.
  revert s. induction schedule as [|i rest IH]; intros s; simpl; [lia|].
  pose proof (IH (step i s)). pose proof (step_accounting i s k p). lia.
Qed.

Lemma step_thread_root t w :
  serving_root t → serving_root (step_thread t w).1.
Proof.
  destruct t as [req st]. intros [Hreq Hst]. simpl in Hreq, Hst. subst req.
  unfold step_thread, serving_root. cbn [th_stage th_request].
  destruct Hst as [-> | [-> | [-> | ->]]].
  - rewrite start_timer_run. simpl. auto.
  - simpl. auto 6.
  - rewrite record_metrics_run. simpl. auto 6.
  - simpl. auto 6.
Qed.

Lemma step_root i s :
  Forall serving_root s.1 → Forall serving_root (step i s).1.
Proof.
  destruct s as [ts w]. unfold step. simpl. intros Hall.
  destruct (ts !! i) as [t|] eqn:Hi; simpl; [|assumption].
  pose proof (step_thread_root t w (Forall_lookup_1 _ _ _ _ Hall Hi)) as Ht.
  destruct (step_thread t w) as [t' w']. simpl in *.
  apply Forall_insert; assumption.
Qed.

Lemma run_root schedule s :
  Forall serving_root s.1 → Forall serving_root (run schedule s).1.
Proof.
  revert s. induction schedule as [|i rest IH]; intros s Hall; simpl;
    [assumption|].
  apply IH, step_root, Hall.
Qed.

Lemma arrive_root n : Forall serving_root (arrive (replicate n GET_root)).
Proof.
  unfold arrive. rewrite fmap_replicate. apply Forall_replicate.
  split; simpl; auto.
Qed.

Lemma completed_root_thread t :
  serving_root t →
  completed ("GET", "/", "200") t = finished t
  ∧ measured "/" t = finished t
  ∧ finished t ≤ 1.
Proof.
  destruct t as [req st]. intros [Hreq Hst]. simpl in Hreq, Hst. subst req.
  unfold completed, measured, finished. cbn [th_stage th_request].
  destruct Hst as [-> | [-> | [-> | ->]]]; simpl; lia.
Qed.

Lemma completed_root ts :
  Forall serving_root ts →
  sum_list_with (completed ("GET", "/", "200")) ts = sum_list_with finished ts
  ∧ sum_list_with (measured "/") ts = sum_list_with finished ts
  ∧ sum_list_with finished ts ≤ length ts.
Proof.
  induction 1 as [|t ts Ht _ IH]; simpl; [lia|].
  apply completed_root_thread in Ht. lia.
Qed.

Lemma run_length schedule s : length (run schedule s).1 = length s.1.
Proof.
  revert s. induction schedule as [|i rest IH]; intros s; simpl;
    [reflexivity|].
  rewrite IH. destruct s as [ts w]. unfold step. simpl.
  destruct (ts !! i) as [t|]; [|reflexivity].
  destruct (step_thread t w) as [t' w']. simpl. apply length_insert.
Qed.

Lemma run_app sched1 sched2 s :
  run (sched1 ++ sched2) s = run sched2 (run sched1 s).
Proof.
  revert s. induction sched1 as [|i rest IH]; intros s; simpl; [reflexivity|].
  apply IH.
Qed.

(** One pass of the scheduler over threads that are all at the same
    stage moves every one of them to the next stage. *)
Lemma run_pass t t' :
  (∀ w, (step_thread t w).1 = t') →
  ∀ m j w, ∃ w',
    run (seq j m) (replicate j t' ++ replicate m t, w) =
      (replicate (j + m) t', w').
Proof.
  intros Hstep. induction m as [|m IH]; intros j w; simpl.
  - exists w. rewrite app_nil_r, Nat.add_0_r. reflexivity.
  - unfold step at 1. simpl.
    rewrite lookup_app_r by (rewrite length_replicate; lia).
    rewrite length_replicate, Nat.sub_diag. simpl.
    specialize (Hstep w). destruct (step_thread t w) as [t1 w1].
    simpl in Hstep. subst t1.
    rewrite insert_app_r_alt by (rewrite length_replicate; lia).
    rewrite length_replicate, Nat.sub_diag. simpl.
    destruct (IH (S j) w1) as [w' Hrun]. exists w'.
    rewrite cons_middle, app_assoc.
    replace (replicate j t' ++ [t']) with (replicate (S j) t')
      by (rewrite replicate_S_end; reflexivity).
    rewrite Hrun. f_equal. f_equal. lia.
Qed.

Lemma round_robin_completes n w :
  ∃ w', run (round_robin n) (arrive (replicate n GET_root), w) =
          (replicate n (Thread GET_root (Finished greeting)), w').
Proof.
  unfold round_robin, arrive. rewrite fmap_replicate, !run_app.
  destruct (run_pass (Thread GET_root Arrived) (Thread GET_root Timed)
              (λ _, eq_refl) n 0 w) as [w1 H1].
  destruct (run_pass (Thread GET_root Timed)
              (Thread GET_root (Handled greeting))
              (λ _, eq_refl) n 0 w1) as [w2 H2].
  assert (∀ w0, (step_thread (Thread GET_root (Handled greeting)) w0).1 =
                Thread GET_root (Finished greeting)) as Hafter.
  { intros w0. unfold step_thread. cbn [th_stage th_request].
    rewrite record_metrics_run. reflexivity. }
  destruct (run_pass _ _ Hafter n 0 w2) as [w3 H3].
  simpl in H1, H2, H3. rewrite H1, H2, H3.
  exists w3. reflexivity.
Qed.

Lemma finished_replicate n rv req :
  sum_list_with finished (replicate n (Thread req (Finished rv))) = n.
Proof. induction n as [|n IH]; simpl; [reflexivity|]. rewrite IH. reflexivity. Qed.

(** C6. The after-hook adds exactly one to the counter child of its own
    label values and nothing to any other, and one observation to the
    histogram child of its own path and none to any other. Hence, for
    any requests and any interleaving of their threads, each counter
    child grew by the number of requests completed with its label
    values and each histogram child received one observation per request
    completed on its path. For [n] requests [GET /] and any
    interleaving, the child [("GET", "/", "200")] and the histogram
    child ["/"] grew by the number of requests completed so far, and
    when the [n] requests overlap completely and all complete, by
    exactly [n]. *)
Theorem requests_counted_once reqs n schedule w :
  let s := run schedule (arrive reqs, w) in
  let s1 := run schedule (arrive (replicate n GET_root), w) in
  let s2 := run (round_robin n) (arrive (replicate n GET_root), w) in
  (∀ req resp k p,
     count_of (_record_metrics req resp w).2 k =
       count_of w k + (if decide (labels_of req resp = k) then 1 else 0) ∧
     observations (_record_metrics req resp w).2 p =
       if decide (path req = p) then elapsed_of w :: observations w p
       else observations w p) ∧
  (∀ k, count_of s.2 k = count_of w k + sum_list_with (completed k) s.1) ∧
  (∀ p, length (observations s.2 p) =
          length (observations w p) + sum_list_with (measured p) s.1) ∧
  (count_of s1.2 ("GET", "/", "200") =
     count_of w ("GET", "/", "200") + sum_list_with finished s1.1 ∧
   length (observations s1.2 "/") =
     length (observations w "/") + sum_list_with finished s1.1 ∧
   sum_list_with finished s1.1 ≤ n) ∧
  (sum_list_with finished s2.1 = n ∧
   count_of s2.2 ("GET", "/", "200") = count_of w ("GET", "/", "200") + n ∧
   length (observations s2.2 "/") = length (observations w "/") + n).
Proof.
  cbv zeta.
  assert (∀ rs k p, sum_list_with (completed k) (arrive rs) = 0
                    ∧ sum_list_with (measured p) (arrive rs) = 0) as Harr.
  { induction rs as [|r rs IH]; intros k p; simpl; [auto|].
    unfold completed, measured. simpl. apply IH. }
  split; [|split; [|split; [|split]]].
  - intros req resp k p. rewrite record_metrics_run.
    unfold count_of, observations. simpl.
    rewrite count_of_inc, observations_observe.
    split; repeat case_decide; subst; try reflexivity; lia.
  - intros k.
    pose proof (run_accounting schedule (arrive reqs, w) k "") as [Hc _].
    destruct (Harr reqs k "") as [Hk _]. simpl in Hc. lia.
  - intros p.
    pose proof (run_accounting schedule (arrive reqs, w) ("", "", "") p)
      as [_ Ho].
    destruct (Harr reqs ("", "", "") p) as [_ Hp]. simpl in Ho. lia.
  - pose proof (run_accounting schedule (arrive (replicate n GET_root), w)
                  ("GET", "/", "200") "/") as [Hc Ho].
    destruct (Harr (replicate n GET_root) ("GET", "/", "200") "/")
      as [Hk Hp].
    pose proof (run_root schedule (arrive (replicate n GET_root), w)
                  (arrive_root n)) as Hroot.
    apply completed_root in Hroot as (E1 & E2 & E3).
    assert (length (run schedule (arrive (replicate n GET_root), w)).1 = n)
      as Hlen.
    { rewrite run_length. unfold arrive. simpl.
      rewrite length_fmap, length_replicate. reflexivity. }
    simpl in Hc, Ho. lia.
  - destruct (round_robin_completes n w) as [w' Hrun].
    pose proof (run_accounting (round_robin n)
                  (arrive (replicate n GET_root), w)
                  ("GET", "/", "200") "/") as [Hc Ho].
    destruct (Harr (replicate n GET_root) ("GET", "/", "200") "/")
      as [Hk Hp].
    pose proof (run_root (round_robin n) (arrive (replicate n GET_root), w)
                  (arrive_root n)) as Hroot.
    apply completed_root in Hroot as (E1 & E2 & E3).
    rewrite Hrun in *. simpl in *.
    rewrite finished_replicate in *. lia.
Qed.

(** C2. Whatever the state, when the before-hook of a second request
    runs between the before-hook and the after-hook of request A, the
    latency recorded for A is measured from the second request's start.
    In particular: request A ([GET /], thread 0) starts at 100.0 and ends
    at 110.0; request B ([GET /healthz], thread 1) starts at 105.0 and ends
    at 106.0, inside A's window. The latency recorded for A is 5.0, the
    time since B's before-hook, and not the 10.0 seconds A took. *)
Theorem concurrent_latency_crossed reqA respA w :
  (let w2 := ((_start_timer >> _start_timer) w).2 in
   observations (_record_metrics reqA respA w2).2 (path reqA) =
     PrimFloat.sub (wall_clock w (S (S (clock_reads w))))
                   (wall_clock w (S (clock_reads w)))
       :: observations w (path reqA)) ∧
  (let s := run [0; 1; 1; 1; 0; 0]
              (arrive [GET_root; GET_healthz],
               boot staggered_clock fixed_rng) in
   s.1 = [Thread GET_root (Finished greeting);
          Thread GET_healthz (Finished (jsonify [("status", "ok")]))] ∧
   observations s.2 "/healthz" = [1%float] ∧
   observations s.2 "/" = [5%float] ∧
   PrimFloat.sub (staggered_clock 4) (staggered_clock 0) = 10%float ∧
   PrimFloat.eqb 5 10 = false).
Proof.
  split.
  - cbv zeta. unfold py_bind at 1. rewrite start_timer_run.
    rewrite start_timer_run. cbn [snd].
    rewrite record_metrics_run. unfold observations, elapsed_of.
    cbn [snd metrics_registry REQUEST_LATENCY app_attrs wall_clock
         clock_reads].
    rewrite observations_observe, lookup_insert_eq.
    destruct (decide _); [reflexivity | congruence].
  - vm_compute. repeat split; reflexivity.
Qed.

(** ** Further properties *)

Lemma dispatch_request_frame req w :
  let w' := (dispatch_request req w).2 in
  metrics_registry w' = metrics_registry w ∧
  app_attrs w' = app_attrs w ∧
  view_functions w' = view_functions w ∧
  wall_clock w' = wall_clock w ∧
  clock_reads w' = clock_reads w ∧
  rng w' = rng w.
Proof.
  cbv zeta. unfold dispatch_request.
  destruct (url_rule req) as [ep|code]; [|repeat split; reflexivity].
  destruct (decide (method req = "OPTIONS")); [repeat split; reflexivity|].
  unfold view_of. repeat case_decide; repeat split; reflexivity.
Qed.

Lemma step_thread_becomes_started t w : started (step_thread t w).1.
Proof.
  unfold started, step_thread.
  destruct t as [req [| |rv|rv|e]]; cbn [th_stage th_request].
  - rewrite start_timer_run. simpl. discriminate.
  - destruct (dispatch_request req w) as [[a|e] w']; simpl; discriminate.
  - rewrite record_metrics_run. simpl. discriminate.
  - simpl. discriminate.
  - simpl. discriminate.
Qed.

Lemma step_thread_started_frame t w :
  started t →
  app_attrs (step_thread t w).2 = app_attrs w ∧
  wall_clock (step_thread t w).2 = wall_clock w.
Proof.
  unfold started, step_thread.
  destruct t as [req [| |rv|rv|e]]; cbn [th_stage th_request]; intros Hs.
  - congruence.
  - pose proof (dispatch_request_frame req w) as (_ & Ha & _ & Hc & _).
    destruct (dispatch_request req w) as [[a|e] w']; simpl in *; auto.
  - rewrite record_metrics_run. simpl. auto.
  - simpl. auto.
  - simpl. auto.
Qed.

Lemma step_lookup_ne i j s : i ≠ j → (step i s).1 !! j = s.1 !! j.
Proof.
  intros Hne. destruct s as [ts w]. unfold step. simpl.
  destruct (ts !! i) as [t|]; [|reflexivity].
  destruct (step_thread t w) as [t' w']. simpl.
  apply list_lookup_insert_ne, Hne.
Qed.

Lemma step_lookup_eq i s t :
  (step i s).1 !! i = Some t → ∃ t0, s.1 !! i = Some t0 ∧
                                      t = (step_thread t0 s.2).1.
Proof.
  destruct s as [ts w]. unfold step. simpl.
  destruct (ts !! i) as [t0|] eqn:Hi; simpl.
  - destruct (step_thread t0 w) as [t' w'] eqn:Hst. simpl.
    rewrite list_lookup_insert_eq by (eapply lookup_lt_Some, Hi).
    intros [= <-]. exists t0. rewrite Hst. auto.
  - rewrite Hi. discriminate.
Qed.

Lemma step_started_frame i s :
  (∀ t, s.1 !! i = Some t → started t) →
  app_attrs (step i s).2 = app_attrs s.2 ∧
  wall_clock (step i s).2 = wall_clock s.2.
Proof.
  destruct s as [ts w]. unfold step. simpl. intros Hst.
  destruct (ts !! i) as [t|]; simpl; [|auto].
  pose proof (step_thread_started_frame t w (Hst t eq_refl)) as Hf.
  destruct (step_thread t w) as [t' w']. exact Hf.
Qed.

Lemma run_started_frame schedule s :
  (∀ j t, j ∈ schedule → s.1 !! j = Some t → started t) →
  app_attrs (run schedule s).2 = app_attrs s.2 ∧
  wall_clock (run schedule s).2 = wall_clock s.2.
Proof.
  revert s. induction schedule as [|i rest IH]; intros s Hst; simpl; [auto|].
  destruct (step_started_frame i s) as [Ha Hc].
  { intros t. apply Hst. left. }
  destruct (IH (step i s)) as [Ha' Hc'].
  { intros j t Hj Hlk. destruct (decide (i = j)) as [<-|Hne].
    - apply step_lookup_eq in Hlk as (t0 & _ & ->).
      apply step_thread_becomes_started.
    - rewrite step_lookup_ne in Hlk by exact Hne.
      eapply Hst; [right; exact Hj | exact Hlk]. }
  split; congruence.
Qed.

(** X1. A request is measured correctly when no other request starts
    while it is in flight: if, between the before-hook of thread [i] and
    its after-hook, the scheduler only runs thread [i] and threads whose
    before-hook has already run, the latency recorded for thread [i] is the
    clock reading of its own after-hook minus the reading of its own
    before-hook. *)
Theorem own_latency_without_overlap ts w i req0 req rv schedule :
  ts !! i = Some (Thread req0 Arrived) →
  (∀ j t, j ∈ schedule → j ≠ i → ts !! j = Some t → started t) →
  (run (i :: schedule) (ts, w)).1 !! i = Some (Thread req (Handled rv)) →
  let s := run (i :: schedule) (ts, w) in
  observations (step i s).2 (path req) =
    PrimFloat.sub (wall_clock w (clock_reads s.2))
                  (wall_clock w (clock_reads w))
      :: observations s.2 (path req).
Proof.
  intros Hi Hothers Hhandled. cbv zeta. simpl in *.
  set (s0 := step i (ts, w)) in *.
  assert (app_attrs s0.2 !! "_start_time" =
            Some (PyFloat (wall_clock w (clock_reads w)))
          ∧ wall_clock s0.2 = wall_clock w) as [Hattr0 Hclock0].
  { subst s0. unfold step. simpl. rewrite Hi. unfold step_thread.
    cbn [th_stage th_request]. rewrite start_timer_run. simpl.
    split; [apply lookup_insert_eq | reflexivity]. }
  destruct (run_started_frame schedule s0) as [Ha Hc].
  { intros j t Hj Hlk. destruct (decide (i = j)) as [<-|Hne].
    - subst s0. apply step_lookup_eq in Hlk as (t0 & _ & ->).
      apply step_thread_becomes_started.
    - subst s0. rewrite step_lookup_ne in Hlk by exact Hne.
      eapply Hothers; [exact Hj | congruence | exact Hlk]. }
  destruct (run schedule s0) as [ts1 w1]. simpl in *.
  unfold step. simpl. rewrite Hhandled. unfold step_thread.
  cbn [th_stage th_request]. rewrite record_metrics_run. simpl.
  unfold observations. simpl. rewrite observations_observe.
  destruct (decide _); [|congruence].
  unfold elapsed_of. rewrite Ha, Hattr0, Hc, Hclock0. reflexivity.
Qed.


(** X3. Whenever subtracting the stored [_start_time] from the clock
    reading raises, as it does when the attribute holds [None] or a
    string, the [except] branch takes over and the after-hook observes
    exactly 0.0 for the request's path; the response is returned and the
    counter incremented as usual. *)
Theorem non_float_start_time_falls_back req resp w v e :
  app_attrs w !! "_start_time" = Some v →
  (py_sub (wall_clock w (clock_reads w)) v w).1 = Raised e →
  let r := _record_metrics req resp w in
  r.1 = Returned resp ∧
  observations r.2 (path req) = 0%float :: observations w (path req) ∧
  count_of r.2 (labels_of req resp) = S (count_of w (labels_of req resp)).
Proof.
  intros Hv Hraise. cbv zeta. rewrite record_metrics_run. simpl.
  unfold observations, count_of. simpl.
  rewrite observations_observe, count_of_inc.
  repeat case_decide; try congruence.
  unfold elapsed_of. rewrite Hv.
  destruct v as [|f|s0]; [|discriminate Hraise|]; repeat split; reflexivity.
Qed.

(** X4. A scrape is itself counted and timed, and the text it returns is
    rendered before its own count is added: serving [GET /metrics] alone
    returns the rendering of the registry as it was when the request
    arrived, adds one to the child [("GET", "/metrics", "200")] and
    observes the time between its two hooks for ["/metrics"]. *)
Theorem metrics_scrape_counts_itself w :
  let r := full_dispatch_request GET_metrics w in
  r.1 = Returned (MkResponse 200 CONTENT_TYPE_LATEST
                    (Text (generate_latest (metrics_registry w)))) ∧
  count_of r.2 ("GET", "/metrics", "200") =
    S (count_of w ("GET", "/metrics", "200")) ∧
  observations r.2 "/metrics" =
    PrimFloat.sub (wall_clock w (S (clock_reads w)))
                  (wall_clock w (clock_reads w))
      :: observations w "/metrics" ∧
  (∀ k, k ≠ ("GET", "/metrics", "200") → count_of r.2 k = count_of w k).
Proof.
  cbv zeta.
  assert (full_dispatch_request GET_metrics w =
            _record_metrics GET_metrics
              (MkResponse 200 CONTENT_TYPE_LATEST
                 (Text (generate_latest (metrics_registry w))))
              (_start_timer w).2) as -> by reflexivity.
  rewrite record_metrics_run, start_timer_run.
  assert (labels_of GET_metrics
            (MkResponse 200 CONTENT_TYPE_LATEST
               (Text (generate_latest (metrics_registry w)))) =
          ("GET", "/metrics", "200")) as -> by reflexivity.
  unfold count_of, observations, elapsed_of.
  cbn [fst snd metrics_registry REQUEST_COUNT REQUEST_LATENCY app_attrs
       wall_clock clock_reads path GET_metrics].
  rewrite lookup_insert_eq.
  split; [reflexivity|]. split; [|split].
  - rewrite count_of_inc. destruct (decide _); [reflexivity | congruence].
  - rewrite observations_observe.
    destruct (decide _); [reflexivity | congruence].
  - intros k Hk. rewrite count_of_inc.
    destruct (decide _); [congruence | reflexivity].
Qed.

Lemma total_counter_inc (k : string * string * string)
    (c : gmap (string * string * string) nat) :
  sum_list_with snd (map_to_list (counter_inc k c)) =
    S (sum_list_with snd (map_to_list c)).
Proof.
  unfold counter_inc. destruct (c !! k) as [v|] eqn:Hk; simpl.
  - rewrite <- insert_delete_eq.
    rewrite map_to_list_insert by apply lookup_delete_eq.
    rewrite <- (map_to_list_delete c k v Hk). reflexivity.
  - rewrite map_to_list_insert by exact Hk. reflexivity.
Qed.

Lemma step_thread_total t w :
  total_count (step_thread t w).2 + finished t =
    total_count w + finished (step_thread t w).1.
Proof.
  unfold step_thread, total_count, finished.
  destruct t as [req [| |rv|rv|e]]; cbn [th_stage th_request].
  - rewrite start_timer_run. simpl. lia.
  - rewrite advance_registry, dispatch_request_registry.
    destruct (dispatch_request req w) as [[a|e] w']; simpl; lia.
  - rewrite record_metrics_run. simpl. rewrite total_counter_inc. lia.
  - simpl. lia.
  - simpl. lia.
Qed.

Lemma run_total schedule s :
  total_count (run schedule s).2 + sum_list_with finished s.1 =
    total_count s.2 + sum_list_with finished (run schedule s).1.
Proof.
  revert s. induction schedule as [|i rest IH]; intros s; simpl; [lia|].
  specialize (IH (step i s)).
  assert (total_count (step i s).2 + sum_list_with finished s.1 =
            total_count s.2 + sum_list_with finished (step i s).1); [|lia].
  destruct s as [ts w]. unfold step. simpl.
  destruct (ts !! i) as [t|] eqn:Hi; simpl; [|lia].
  pose proof (step_thread_total t w) as Ht.
  destruct (step_thread t w) as [t' w']. simpl in *.
  pose proof (sum_list_with_insert finished ts i t t' Hi). lia.
Qed.

(** X5. Summed over all its children, the request counter grows by one
    per completed request, whatever the requests and their interleaving:
    after any schedule the sum exceeds its initial value by the number of
    threads that have finished. *)
Theorem total_count_is_completed_requests reqs schedule w :
  let s := run schedule (arrive reqs, w) in
  total_count s.2 = total_count w + sum_list_with finished s.1.
Proof.
  cbv zeta.
  assert (sum_list_with finished (arrive reqs) = 0) as Hz.
  { induction reqs as [|r rs IH]; simpl; [reflexivity | exact IH]. }
  pose proof (run_total schedule (arrive reqs, w)) as H.
  simpl in H. lia.
Qed.

Lemma labels_of_agree req1 resp1 req2 resp2 :
  labels_of req1 resp1 = labels_of req2 resp2 ↔
  method req1 = method req2 ∧ path req1 = path req2 ∧
  status_code resp1 = status_code resp2.
Proof.
  unfold labels_of, py_str. split.
  - intros [= Hm Hp Hs]. apply (inj pretty) in Hs. auto.
  - intros (-> & -> & ->). reflexivity.
Qed.

(** X6. Two runs of the after-hook count in the same child exactly when
    they agree on method, raw path and status code: after the hook has
    run for a first and then for a second request, the counter child of
    the first request's labels is two higher than before when the two
    agree, and one higher when they differ in method, path or status. *)
Theorem same_child_iff_same_labels req1 resp1 req2 resp2 w :
  let k1 := (method req1, path req1, py_str (status_code resp1)) in
  let w1 := (_record_metrics req1 resp1 w).2 in
  let w2 := (_record_metrics req2 resp2 w1).2 in
  (REQUEST_COUNT (metrics_registry w2) !! k1 = Some (count_of w k1 + 2) ↔
   same_labels req1 resp1 req2 resp2) ∧
  (REQUEST_COUNT (metrics_registry w2) !! k1 = Some (count_of w k1 + 1) ↔
   ¬ same_labels req1 resp1 req2 resp2).
Proof.
  cbv zeta. rewrite !record_metrics_run.
  cbn [fst snd metrics_registry REQUEST_COUNT].
  fold (labels_of req1 resp1). unfold same_labels, count_of.
  rewrite <- labels_of_agree.
  set (k1 := labels_of req1 resp1). set (k2 := labels_of req2 resp2).
  set (c := REQUEST_COUNT (metrics_registry w)).
  assert (counter_inc k2 (counter_inc k1 c) !! k1 =
            Some (default 0 (c !! k1) + (if decide (k1 = k2) then 2 else 1)))
    as ->.
  { unfold counter_inc. destruct (decide (k1 = k2)) as [<-|Hne].
    - rewrite !lookup_insert_eq. simpl. f_equal. lia.
    - rewrite lookup_insert_ne by congruence.
      rewrite lookup_insert_eq. f_equal. lia. }
  destruct (decide (k1 = k2)) as [He|Hne]; split; split; intros H;
    first [done | congruence | (injection H as H; lia)].
Qed.

Lemma step_thread_grows t w k p :
  count_of w k ≤ count_of (step_thread t w).2 k ∧
  observations w p `suffix_of` observations (step_thread t w).2 p.
Proof.
  unfold step_thread, count_of, observations.
  destruct t as [req [| |rv|rv|e]]; cbn [th_stage th_request].
  - rewrite start_timer_run. simpl. split; [lia | reflexivity].
  - rewrite advance_registry, dispatch_request_registry.
    split; [lia | reflexivity].
  - rewrite record_metrics_run. simpl.
    rewrite count_of_inc, observations_observe.
    repeat case_decide; subst; split; try lia; try reflexivity;
      apply suffix_cons_r; reflexivity.
  - simpl. split; [lia | reflexivity].
  - simpl. split; [lia | reflexivity].
Qed.

(** X7. No hook and no view ever resets a metric: along any schedule,
    from any state, every counter child only grows and every histogram
    child keeps all the observations it had, new ones being added in
    front. *)
Theorem metrics_only_grow schedule s k p :
  count_of s.2 k ≤ count_of (run schedule s).2 k ∧
  observations s.2 p `suffix_of` observations (run schedule s).2 p.
Proof.
  revert s. induction schedule as [|i rest IH]; intros s; simpl.
  - split; [lia | reflexivity].
  - destruct (IH (step i s)) as [Hc Ho].
    assert (count_of s.2 k ≤ count_of (step i s).2 k ∧
            observations s.2 p `suffix_of` observations (step i s).2 p)
      as [Hc1 Ho1].
    { destruct s as [ts w]. unfold step. simpl.
      destruct (ts !! i) as [t|]; simpl; [|split; [lia | reflexivity]].
      pose proof (step_thread_grows t w k p) as Ht.
      destruct (step_thread t w) as [t' w']. exact Ht. }
    split; [lia | etrans; eassumption].
Qed.

Lemma arrive_nothing_completed reqs k p :
  sum_list_with (completed k) (arrive reqs) = 0
  ∧ sum_list_with (measured p) (arrive reqs) = 0.
Proof.
  induction reqs as [|r rs IH]; simpl; [auto|].
  unfold completed, measured. simpl. exact IH.
Qed.

Lemma step_thread_children_used t w :
  children_used (metrics_registry w) →
  children_used (metrics_registry (step_thread t w).2).
Proof.
  unfold step_thread.
  destruct t as [req [| |rv|rv|e]]; cbn [th_stage th_request]; intros Hu.
  - rewrite start_timer_run. exact Hu.
  - rewrite advance_registry, dispatch_request_registry. exact Hu.
  - rewrite record_metrics_run. simpl. destruct Hu as [Hc Ho].
    split; simpl.
    + intros k v. unfold counter_inc. rewrite lookup_insert.
      case_decide; [intros [= <-]; lia | apply Hc].
    + intros p l. unfold histogram_observe. rewrite lookup_insert.
      case_decide; [intros [= <-]; discriminate | apply Ho].
  - exact Hu.
  - exact Hu.
Qed.

Lemma run_children_used schedule s :
  children_used (metrics_registry s.2) →
  children_used (metrics_registry (run schedule s).2).
Proof.
  revert s. induction schedule as [|i rest IH]; intros s Hu; simpl;
    [exact Hu|].
  apply IH. destruct s as [ts w]. unfold step. simpl in *.
  destruct (ts !! i) as [t|]; simpl; [|exact Hu].
  pose proof (step_thread_children_used t w Hu) as Ht.
  destruct (step_thread t w) as [t' w']. exact Ht.
Qed.

(** X8. Children are created by completed requests only: in a process
    started afresh, after any schedule, the counter child of label values
    [k] exists exactly when some request has completed with these labels,
    and then holds their number; the histogram child of path [p] exists
    exactly when some request to [p] has completed. *)
Theorem children_created_on_completion reqs schedule clock gen k p :
  let s := run schedule (arrive reqs, boot clock gen) in
  REQUEST_COUNT (metrics_registry s.2) !! k =
    match sum_list_with (completed k) s.1 with
    | 0 => None
    | S n => Some (S n)
    end ∧
  (REQUEST_LATENCY (metrics_registry s.2) !! p = None ↔
   sum_list_with (measured p) s.1 = 0).
Proof.
  cbv zeta.
  destruct (arrive_nothing_completed reqs k p) as [Hk Hp].
  pose proof (run_accounting schedule (arrive reqs, boot clock gen) k p)
    as [Hc Ho].
  pose proof (run_children_used schedule (arrive reqs, boot clock gen))
    as [Hpos Hne].
  { split; intros ? ?; simpl; rewrite lookup_empty; discriminate. }
  unfold count_of, observations in Hc, Ho. simpl in Hc, Ho.
  rewrite Hk in Hc. rewrite Hp in Ho. rewrite !lookup_empty in *.
  simpl in Hc, Ho. split.
  - rewrite <- Hc.
    destruct (REQUEST_COUNT _ !! k) as [v|] eqn:Hv; simpl; [|reflexivity].
    apply Hpos in Hv. replace (v + 0) with v by lia.
    destruct v; [lia | reflexivity].
  - rewrite <- Ho.
    destruct (REQUEST_LATENCY _ !! p) as [l|] eqn:Hl; simpl.
    + apply Hne in Hl. split; [discriminate|].
      destruct l; [congruence | simpl; lia].
    + split; reflexivity.
Qed.

(** X9. No view has a side effect on the metrics, the attributes of
    [app], the table of view functions or the clock, for any request; the
    only view that sleeps or draws a random number is the greeting, which
    sleeps once for the number it drew. *)
Theorem views_side_effects req w :
  let w' := (dispatch_request req w).2 in
  metrics_registry w' = metrics_registry w ∧
  app_attrs w' = app_attrs w ∧
  view_functions w' = view_functions w ∧
  wall_clock w' = wall_clock w ∧
  clock_reads w' = clock_reads w ∧
  sleeps w' =
    (if to_greeting req
     then rng w 0.01%float 0.2%float (rng_draws w) :: sleeps w
     else sleeps w) ∧
  rng_draws w' =
    (if to_greeting req then S (rng_draws w) else rng_draws w).
Proof.
  cbv zeta. unfold dispatch_request, to_greeting.
  destruct (url_rule req) as [ep|code]; [|repeat split; reflexivity].
  destruct (decide (method req = "OPTIONS")) as [Ho|Ho].
  - rewrite (bool_decide_eq_true_2 _ Ho), andb_false_r.
    repeat split; reflexivity.
  - rewrite (bool_decide_eq_false_2 _ Ho), andb_true_r.
    unfold view_of. destruct (decide (ep = "index")) as [He|He].
    + rewrite (bool_decide_eq_true_2 _ He). repeat split; reflexivity.
    + rewrite (bool_decide_eq_false_2 _ He).
      repeat case_decide; repeat split; reflexivity.
Qed.



(** X11. A request no rule matches is instrumented like any other, under
    its raw path: served alone, it is answered with the status of its
    routing exception, adds one to the counter child of its method, its
    raw path and that status, and gets its own latency observed in the
    histogram child of its raw path. Every distinct path requested thus
    adds children to both metrics. *)
Theorem unmatched_request_counted m p code w :
  let req := Request m p (RoutingException code) in
  let r := full_dispatch_request req w in
  r.1 = Returned (MkResponse code "text/html" Empty) ∧
  REQUEST_COUNT (metrics_registry r.2) !! (m, p, py_str code) =
    Some (S (count_of w (m, p, py_str code))) ∧
  REQUEST_LATENCY (metrics_registry r.2) !! p =
    Some (PrimFloat.sub (wall_clock w (S (clock_reads w)))
                        (wall_clock w (clock_reads w))
            :: observations w p).
Proof.
  cbv zeta.
  assert (full_dispatch_request (Request m p (RoutingException code)) w =
            _record_metrics (Request m p (RoutingException code))
              (MkResponse code "text/html" Empty)
              (_start_timer w).2) as -> by reflexivity.
  rewrite record_metrics_run, start_timer_run.
  unfold count_of, observations, elapsed_of, labels_of, counter_inc,
    histogram_observe.
  cbn [fst snd metrics_registry REQUEST_COUNT REQUEST_LATENCY app_attrs
       wall_clock clock_reads path method status_code].
  rewrite !lookup_insert_eq. repeat split; reflexivity.
Qed.

End App.

(** ** Instances *)

(** C3. With no [_start_time] attribute and a clock that advances from
    10.0 to 10.5 between the two readings of the after-hook, the hook
    returns the response but observes -0.5: the [except] branch that
    yields 0.0 is not taken, and the default of [getattr], read after the
    value it is subtracted from, makes the elapsed time negative. *)
Lemma missing_start_time_not_zero :
  let w := boot advancing_clock fixed_rng in
  let r := _record_metrics GET_root greeting w in
  app_attrs w !! "_start_time" = None ∧
  r.1 = Returned greeting ∧
  observations r.2 "/" = [(-0.5)%float] ∧
  PrimFloat.eqb (-0.5) 0 = false ∧
  observations r.2 "/" ≠ [0%float].
Proof.
  vm_compute. repeat split; try reflexivity.
  intros H. apply (f_equal (λ l, match l with
                                 | [x] => PrimFloat.eqb x 0
                                 | _ => true
                                 end)) in H.
  vm_compute in H. discriminate.
Qed.

Lemma missing_start_time_elapsed_witness :
  let w := boot advancing_clock fixed_rng in
  app_attrs w !! "_start_time" = None ∧
  (_record_metrics GET_root greeting w).1 = Returned greeting ∧
  observations (_record_metrics GET_root greeting w).2 "/" =
    [PrimFloat.sub (advancing_clock 0) (advancing_clock 1)].
Proof.
  split; [reflexivity|].
  exact (missing_start_time_elapsed GET_root greeting
           (boot advancing_clock fixed_rng) eq_refl).
Defined.

(** C4, as stated, fails: for a request no rule matched, introspection
    fails and the derived name is "unknown", yet the counter child that is
    incremented is labelled with the raw path; no child labelled "unknown"
    exists afterwards. *)
Lemma unknown_label_not_recorded :
  let w := boot advancing_clock fixed_rng in
  let r := _record_metrics GET_nope not_found w in
  introspection_fails GET_nope w = true ∧
  derive_endpoint GET_nope w = (Returned "unknown", w) ∧
  r.1 = Returned not_found ∧
  REQUEST_COUNT (metrics_registry r.2) !! ("GET", "unknown", "404") = None ∧
  REQUEST_COUNT (metrics_registry r.2) !! ("GET", "/nope", "404") = Some 1 ∧
  REQUEST_LATENCY (metrics_registry r.2) !! "unknown" = None.
Proof. vm_compute. repeat split; reflexivity. Qed.

Lemma index_delay_and_greeting_witness :
  let w := boot advancing_clock fixed_rng in
  uniform_in_range w 0.01%float 0.2%float ∧
  sleeps (index w).2 = [0.1%float] ∧
  PrimFloat.leb 0.01%float 0.1%float = true ∧
  PrimFloat.leb 0.1%float 0.2%float = true.
Proof.
  assert (uniform_in_range (boot advancing_clock fixed_rng)
            0.01%float 0.2%float) as Hrange by (split; reflexivity).
  split; [exact Hrange|].
  destruct (index_delay_and_greeting (boot advancing_clock fixed_rng) Hrange)
    as (_ & Hs & _ & Hlo & Hhi).
  split; [exact Hs|]. split; [exact Hlo | exact Hhi].
Defined.

Lemma own_latency_without_overlap_witness :
  let ts := [Thread GET_root Arrived; Thread GET_healthz Timed] in
  let w := boot staggered_clock fixed_rng in
  let s := run "text/plain" (λ _, "") (λ _, not_found) [0; 1; 0; 1] (ts, w) in
  ts !! 0 = Some (Thread GET_root Arrived) ∧
  s.1 !! 0 = Some (Thread GET_root (Handled greeting)) ∧
  observations (step "text/plain" (λ _, "") (λ _, not_found) 0 s).2 "/" = [6%float].
Proof.
  split; [reflexivity|]. split; [reflexivity|].
  apply (own_latency_without_overlap "text/plain" (λ _, "") (λ _, not_found)
           [Thread GET_root Arrived; Thread GET_healthz Timed]
           (boot staggered_clock fixed_rng) 0 GET_root GET_root greeting
           [1; 0; 1]).
  - reflexivity.
  - intros j t _ Hne Hlk. destruct j as [|[|j]].
    + congruence.
    + injection Hlk as <-. discriminate.
    + discriminate.
  - reflexivity.
Defined.


Lemma non_float_start_time_falls_back_witness :
  let w := tampered advancing_clock in
  let r := _record_metrics GET_root greeting w in
  app_attrs w !! "_start_time" = Some PyNone ∧
  r.1 = Returned greeting ∧
  observations r.2 "/" = [0%float] ∧
  count_of r.2 ("GET", "/", "200") = 1.
Proof.
  split; [reflexivity|].
  exact (non_float_start_time_falls_back GET_root greeting
           (tampered advancing_clock) PyNone TypeError eq_refl eq_refl).
Defined.


Lemma metrics_content_type_charset_witness :
  let required := "text/plain; version=0.0.4; charset=utf-8" in
  let w := boot advancing_clock fixed_rng in
  String.prefix "text/" required = true ∧
  ∃ resp,
    metrics required (λ _, "") w = (Returned resp, w) ∧
    status_code resp = 200%Z ∧
    data resp = Text "" ∧
    content_type resp =
      "text/plain; version=0.0.4; charset=utf-8; charset=utf-8" ∧
    content_type resp ≠ required.
Proof.
  split; [reflexivity|].
  exact (metrics_content_type_charset
           "text/plain; version=0.0.4; charset=utf-8" (λ _, "")
           (boot advancing_clock fixed_rng) eq_refl).
Defined.
